(** * pymap3d.ellipsoid: the reference-ellipsoid registry and its derived
    parameters.

    The development embeds [src/pymap3d/ellipsoid.py] shallowly:
    - Python [float] is IEEE-754 binary64, modelled by Rocq's primitive
      floats (same format, same round-to-nearest-even arithmetic, and decimal
      literals are rounded to the nearest binary64 value as Python does);
    - exceptions are an explicit [result] type;
    - the instance under construction, [self], is its attribute dictionary,
      threaded through [__init__] by a small state-and-error monad;
    - the [models] dict literal is a [gmap] from identifiers to entries;
    - a [str] is the sequence of the bytes of its UTF-8 encoding (only
      equality and concatenation of strings are used). *)

From Stdlib Require Import Floats.
From stdpp Require Import gmap strings list.

Set Warnings "-inexact-float".

Local Open Scope string_scope.

(** ** Exceptions and results *)

Inductive exn : Type :=
  | NotImplementedError (msg : string)
  | KeyError (key : string)
  | AttributeError (attr : string)
  | TypeError
  | ZeroDivisionError
  | OverflowError
  | ValueError.

Inductive result (A : Type) : Type :=
  | Ok (x : A)
  | Raise (e : exn).

Arguments Ok {A} x.
Arguments Raise {A} e.

Global Instance result_ret : MRet result := λ A x, Ok x.

Global Instance result_bind : MBind result := λ A B f r,
  match r with
  | Ok x => f x
  | Raise e => Raise e
  end.

(** ** Python floats *)

(** Leibniz equality of binary64 values is decided by the kernel's bitwise
    comparison (it tells [0.0] from [-0.0] and identifies NaNs). *)
Global Instance float_eq_dec : EqDecision float.
Proof.
  intros x y. destruct (PrimFloat.Leibniz.eqb x y) eqn:E; [left | right].
  - by apply FloatAxioms.Leibniz.eqb_spec.
  - intros H. apply FloatAxioms.Leibniz.eqb_spec in H. congruence.
Defined.

Global Instance exn_eq_dec : EqDecision exn.
Proof. solve_decision. Defined.

Global Instance result_eq_dec {A : Type} `{EqDecision A} : EqDecision (result A).
Proof. solve_decision. Defined.

Module PyFloat.
Local Open Scope float_scope.

(** [x == y], [x <= y], [x < y] on floats: the IEEE comparisons (false on
    NaN, and [0.0 == -0.0]). *)
Definition eq (x y : float) : bool := PrimFloat.eqb x y.
Definition le (x y : float) : bool := PrimFloat.leb x y.
Definition lt (x y : float) : bool := PrimFloat.ltb x y.

(** [x / y]: true division raises on a zero divisor of either sign. *)
Definition truediv (x y : float) : result float :=
  if PrimFloat.eqb y 0 then Raise ZeroDivisionError else Ok (x / y).

(** [math.sqrt(x)]: the C square root; a NaN produced from an argument that
    is not NaN (a negative argument) is a "math domain error". *)
Definition math_sqrt (x : float) : result float :=
  let r := PrimFloat.sqrt x in
  if PrimFloat.is_nan r && negb (PrimFloat.is_nan x)
  then Raise ValueError
  else Ok r.

Section Pow.
(** CPython's [float.__pow__] settles the special cases itself and hands the
    remaining ones, with the base replaced by its absolute value, to the
    platform's C [pow]; the Python source does not determine that function. *)
Variable libm_pow : float → float → float.

(** [x ** 2] for a float [x]: the [int] exponent is converted to [2.0],
    which is neither zero, NaN, infinite nor odd. The C function reports a
    range error by an infinite result, which becomes [OverflowError]. *)
Definition pow2 (x : float) : result float :=
  if PrimFloat.is_nan x then Ok x
  else if PrimFloat.is_infinity x then Ok (PrimFloat.abs x)
  else if PrimFloat.eqb x 0 then Ok 0
  else if PrimFloat.eqb (PrimFloat.abs x) 1 then Ok 1
  else
    let r := libm_pow (PrimFloat.abs x) 2 in
    if PrimFloat.is_infinity r then Raise OverflowError else Ok r.
End Pow.

(** The floats a C library may return for a square whose correctly rounded
    value is [s]: that float or one of its two neighbours. *)
Definition candidates (s : float) : list float :=
  [s; PrimFloat.next_up s; PrimFloat.next_down s].

(** A C [pow] that is accurate to one unit in the last place on squares. *)
Definition faithful (libm_pow : float → float → float) : Prop :=
  ∀ x, libm_pow x 2 ∈ candidates (x * x).

(** A C library whose [pow] rounds squares correctly. *)
Definition exact_pow (x y : float) : float :=
  if PrimFloat.eqb y 2 then x * x else nan.
End PyFloat.

(** ** Objects *)

Inductive value : Type :=
  | VStr (s : string)
  | VFloat (x : float).

Global Instance value_eq_dec : EqDecision value.
Proof. solve_decision. Defined.

(** An instance is its [__dict__]. *)
Abbreviation obj := (gmap string value).

(** Statements running against [self]: they read and write attributes and
    may raise. *)
Definition M (A : Type) : Type := obj → result (A * obj).

Global Instance M_ret : MRet M := λ A x self, Ok (x, self).

Global Instance M_bind : MBind M := λ A B f m self,
  match m self with
  | Ok (x, self') => f x self'
  | Raise e => Raise e
  end.

Definition raise {A : Type} (e : exn) : M A := λ _, Raise e.

Definition lift {A : Type} (r : result A) : M A := λ self,
  match r with
  | Ok x => Ok (x, self)
  | Raise e => Raise e
  end.

(** [self.k = v] *)
Definition setattr (k : string) (v : value) : M unit := λ self,
  Ok (tt, <[k := v]> self).

(** [self.k] *)
Definition getattr (k : string) : M value := λ self,
  match self !! k with
  | Some v => Ok (v, self)
  | None => Raise (AttributeError k)
  end.

(** [self.k] used as an operand of float arithmetic. *)
Definition getattr_float (k : string) : M float :=
  v ← getattr k;
  match v with
  | VFloat x => mret x
  | VStr _ => raise TypeError
  end.

(** ** The registry *)

Module Model.
(** The inner dict literals all have the keys ['name'], ['a'] and ['b']. *)
Record t : Type := mk { name : string; a : float; b : float }.
End Model.

(** A dict literal: a later binding of a key replaces an earlier one. *)
Definition dict_literal {V : Type} (items : list (string * V)) : gmap string V :=
  list_to_map (reverse items).

(** [d[k]] *)
Definition subscript {V : Type} (d : gmap string V) (k : string) : result V :=
  match d !! k with
  | Some v => Ok v
  | None => Raise (KeyError k)
  end.

Definition models_items : list (string * Model.t) :=
  [ (* Earth ellipsoids *)
    ("maupertuis", Model.mk "Maupertuis (1738)" 6397300.0 6363806.283);
    ("plessis", Model.mk "Plessis (1817)" 6376523.0 6355862.9333);
    ("everest1830", Model.mk "Everest (1830)" 6377299.365 6356098.359);
    ("everest1830m", Model.mk "Everest 1830 Modified (1967)" 6377304.063 6356103.039);
    ("everest1967", Model.mk "Everest 1830 (1967 Definition)" 6377298.556 6356097.55);
    ("airy", Model.mk "Airy (1830)" 6377563.396 6356256.909);
    ("bessel", Model.mk "Bessel (1841)" 6377397.155 6356078.963);
    ("clarke1866", Model.mk "Clarke (1866)" 6378206.4 6356583.8);
    ("clarke1878", Model.mk "Clarke (1878)" 6378190.0 6356456.0);
    ("clarke1860", Model.mk "Clarke (1880)" 6378249.145 6356514.87);
    ("helmert", Model.mk "Helmert (1906)" 6378200.0 6356818.17);
    ("hayford", Model.mk "Hayford (1910)" 6378388.0 6356911.946);
    ("international1924", Model.mk "International (1924)" 6378388.0 6356911.946);
    ("krassovsky1940", Model.mk "Krassovsky (1940)" 6378245.0 6356863.019);
    ("wgs66", Model.mk "WGS66 (1966)" 6378145.0 6356759.769);
    ("australian", Model.mk "Australian National (1966)" 6378160.0 6356774.719);
    ("international1967", Model.mk "New International (1967)" 6378157.5 6356772.2);
    ("grs67", Model.mk "GRS-67 (1967)" 6378160.0 6356774.516);
    ("sa1969", Model.mk "South American (1969)" 6378160.0 6356774.719);
    ("wgs72", Model.mk "WGS-72 (1972)" 6378135.0 6356750.52001609);
    ("grs80", Model.mk "GRS-80 (1979)" 6378137.0 6356752.31414036);
    ("wgs84", Model.mk "WGS-84 (1984)" 6378137.0 6356752.31424518);
    ("iers1989", Model.mk "IERS (1989)" 6378136.0 6356751.302);
    ("pz90.11", Model.mk "ПЗ-90 (2011)" 6378136.0 6356751.3618);
    ("iers2003", Model.mk "IERS (2003)" 6378136.6 6356751.9);
    ("gsk2011", Model.mk "ГСК (2011)" 6378136.5 6356751.758);
    (* Other planets *)
    ("mercury", Model.mk "Mercury" 2440500.0 2438300.0);
    ("venus", Model.mk "Venus" 6051800.0 6051800.0);
    ("moon", Model.mk "Moon" 1738100.0 1736000.0);
    ("mars", Model.mk "Mars" 3396900.0 3376097.80585952);
    ("jupyter", Model.mk "Jupiter" 71492000.0 66770054.3475922);
    ("io", Model.mk "Io" 1829.7 1815.8);
    ("saturn", Model.mk "Saturn" 60268000.0 54364301.5271271);
    ("uranus", Model.mk "Uranus" 25559000.0 24973000.0);
    ("neptune", Model.mk "Neptune" 24764000.0 24341000.0);
    ("pluto", Model.mk "Pluto" 1188000.0 1188000.0)
  ]%float.

Definition models : gmap string Model.t := dict_literal models_items.

(** ** The class *)

Module Ellipsoid.
Local Open Scope float_scope.

Section Init.
Variable libm_pow : float → float → float.

Definition __init__ (model : option string) : M unit :=
  let model := default "wgs84" model in
  if bool_decide (model ∉ dom models) then
    raise (NotImplementedError
             (model +:+ " model not implemented, let us know and we will add it (or make a pull request)"))
  else
    setattr "model" (VStr model);;
    e ← lift (subscript models model);
    setattr "name" (VStr (Model.name e));;
    e ← lift (subscript models model);
    setattr "semimajor_axis" (VFloat (Model.a e));;
    e ← lift (subscript models model);
    setattr "semiminor_axis" (VFloat (Model.b e));;
    a ← getattr_float "semimajor_axis";
    b ← getattr_float "semiminor_axis";
    a' ← getattr_float "semimajor_axis";
    f ← lift (PyFloat.truediv (a - b) a');
    setattr "flattening" (VFloat f);;
    a ← getattr_float "semimajor_axis";
    b ← getattr_float "semiminor_axis";
    a' ← getattr_float "semimajor_axis";
    b' ← getattr_float "semiminor_axis";
    n ← lift (PyFloat.truediv (a - b) (a' + b'));
    setattr "thirdflattening" (VFloat n);;
    f ← getattr_float "flattening";
    f' ← getattr_float "flattening";
    p ← lift (PyFloat.pow2 libm_pow f');
    r ← lift (PyFloat.math_sqrt (2 * f - p));
    setattr "eccentricity" (VFloat r).

(** [Ellipsoid(model)] or [Ellipsoid()]: a new instance, with no attributes
    yet, is initialised and returned. *)
Definition construct (model : option string) : result obj :=
  match __init__ model ∅ with
  | Ok (_, self) => Ok self
  | Raise e => Raise e
  end.
End Init.

(** What [__init__] computes from a registry entry, without the object. *)
Definition derive (libm_pow : float → float → float) (e : Model.t)
  : result (float * float * float) :=
  let a := Model.a e in
  let b := Model.b e in
  f ← PyFloat.truediv (a - b) a;
  n ← PyFloat.truediv (a - b) (a + b);
  p ← PyFloat.pow2 libm_pow f;
  r ← PyFloat.math_sqrt (2 * f - p);
  Ok (f, n, r).

(** The seven assignments of [__init__], in its order. *)
Definition assign (model : string) (e : Model.t) (d : float * float * float)
  (self : obj) : obj :=
  <["eccentricity" := VFloat d.2]>
    (<["thirdflattening" := VFloat d.1.2]>
      (<["flattening" := VFloat d.1.1]>
        (<["semiminor_axis" := VFloat (Model.b e)]>
          (<["semimajor_axis" := VFloat (Model.a e)]>
            (<["name" := VStr (Model.name e)]>
              (<["model" := VStr model]> self)))))).

(** The public attributes of an instance, read together. *)
Record t : Type := mk {
  model : string;
  name : string;
  semimajor_axis : float;
  semiminor_axis : float;
  flattening : float;
  thirdflattening : float;
  eccentricity : float
}.

Definition attributes : list string :=
  ["model"; "name"; "semimajor_axis"; "semiminor_axis";
   "flattening"; "thirdflattening"; "eccentricity"].

Definition str_attr (self : obj) (k : string) : option string :=
  match self !! k with Some (VStr s) => Some s | _ => None end.

Definition float_attr (self : obj) (k : string) : option float :=
  match self !! k with Some (VFloat x) => Some x | _ => None end.

Definition read (self : obj) : option t :=
  m ← str_attr self "model";
  nm ← str_attr self "name";
  a ← float_attr self "semimajor_axis";
  b ← float_attr self "semiminor_axis";
  f ← float_attr self "flattening";
  n ← float_attr self "thirdflattening";
  e ← float_attr self "eccentricity";
  Some (mk m nm a b f n e).
End Ellipsoid.

Global Instance Ellipsoid_eq_dec : EqDecision Ellipsoid.t.
Proof. solve_decision. Defined.

(** ** The formulas of the specification *)

Module Spec.
Local Open Scope float_scope.

Definition flattening (a b : float) : float := (a - b) / a.

Definition thirdflattening (a b : float) : float := (a - b) / (a + b).

(** [sqrt(2f - f²)], the square being the correctly rounded product. *)
Definition eccentricity (f : float) : float := PrimFloat.sqrt (2 * f - f * f).

(** The [Ellipsoid] described for a registry entry: the identifier, the
    entry's name and axes, and the three derived scalars. *)
Definition ellipsoid (id : string) (e : Model.t) : Ellipsoid.t :=
  let a := Model.a e in
  let b := Model.b e in
  let f := flattening a b in
  Ellipsoid.mk id (Model.name e) a b f (thirdflattening a b) (eccentricity f).

(** The error of the single kind, carrying the offending identifier: the
    source raises [NotImplementedError] with a message that starts with it. *)
Definition UnsupportedModelError (id : string) (x : exn) : Prop :=
  ∃ rest : string, x = NotImplementedError (id +:+ rest).

(** The entries the specification cites verbatim: identifier, [a], [b]. *)
Definition cited : list (string * float * float) :=
  [ ("wgs84", 6378137.0, 6356752.31424518);
    ("grs80", 6378137.0, 6356752.31414036);
    ("wgs72", 6378135.0, 6356750.52001609);
    ("mars", 3396900.0, 3376097.80585952);
    ("moon", 1738100.0, 1736000.0) ]%string.

(** The ranges of section 8, with Python's comparisons. *)
Definition in_range (E : Ellipsoid.t) : Prop :=
  PyFloat.le (Ellipsoid.semiminor_axis E) (Ellipsoid.semimajor_axis E) = true
  ∧ PyFloat.lt 0 (Ellipsoid.semiminor_axis E) = true
  ∧ PyFloat.le 0 (Ellipsoid.flattening E) = true
  ∧ PyFloat.lt (Ellipsoid.flattening E) 1 = true
  ∧ PyFloat.le 0 (Ellipsoid.eccentricity E) = true
  ∧ PyFloat.lt (Ellipsoid.eccentricity E) 1 = true.

(** The derived fields are those of the formulas applied to the stored
    axes: the same floats, and equal under Python's [==]. *)
Definition recomputed (E : Ellipsoid.t) : Prop :=
  let a := Ellipsoid.semimajor_axis E in
  let b := Ellipsoid.semiminor_axis E in
  (Ellipsoid.flattening E = flattening a b
   ∧ Ellipsoid.thirdflattening E = thirdflattening a b
   ∧ Ellipsoid.eccentricity E = eccentricity (Ellipsoid.flattening E))
  ∧ (PyFloat.eq (Ellipsoid.flattening E) (flattening a b) = true
     ∧ PyFloat.eq (Ellipsoid.thirdflattening E) (thirdflattening a b) = true
     ∧ PyFloat.eq (Ellipsoid.eccentricity E) (eccentricity (Ellipsoid.flattening E)) = true).

(** The sphere case. *)
Definition sphere (E : Ellipsoid.t) : Prop :=
  (Ellipsoid.semimajor_axis E = Ellipsoid.semiminor_axis E
   ∧ Ellipsoid.flattening E = 0
   ∧ Ellipsoid.eccentricity E = 0)
  ∧ (PyFloat.eq (Ellipsoid.semimajor_axis E) (Ellipsoid.semiminor_axis E) = true
     ∧ PyFloat.eq (Ellipsoid.flattening E) 0 = true
     ∧ PyFloat.eq (Ellipsoid.eccentricity E) 0 = true).
End Spec.

Global Instance in_range_dec (E : Ellipsoid.t) : Decision (Spec.in_range E).
Proof. unfold Spec.in_range. apply _. Defined.

Global Instance recomputed_dec (E : Ellipsoid.t) : Decision (Spec.recomputed E).
Proof. unfold Spec.recomputed. cbv zeta. apply _. Defined.

Global Instance sphere_dec (E : Ellipsoid.t) : Decision (Spec.sphere E).
Proof. unfold Spec.sphere. apply _. Defined.

(** ** What the registry entries evaluate to *)

(** The entry's derived values are those of the formulas whichever of the
    admissible floats the C library returns for the square. *)
Definition entry_computed (e : Model.t) : Prop :=
  let f := Spec.flattening (Model.a e) (Model.b e) in
  Forall
    (λ p : float,
       Ellipsoid.derive (λ _ _, p) e
       = Ok (f, Spec.thirdflattening (Model.a e) (Model.b e), Spec.eccentricity f))
    (PyFloat.candidates (PrimFloat.abs f * PrimFloat.abs f)).

(** ** Further definitions used by the later properties *)

(** A C library whose [pow] errs upwards by one unit in the last place on
    every square. *)
Definition upward_pow (x y : float) : float :=
  if PrimFloat.eqb y 2 then PrimFloat.next_up (x * x) else nan.

(** The three derived scalars in their order, and zero together: Python's
    [0 <= n <= f <= e], [n < 1], and [f == 0], [n == 0], [e == 0] and
    [a == b] all have the same truth value. *)
Definition shape_ordered (E : Ellipsoid.t) : Prop :=
  (PyFloat.le 0 (Ellipsoid.thirdflattening E) = true
   ∧ PyFloat.le (Ellipsoid.thirdflattening E) (Ellipsoid.flattening E) = true
   ∧ PyFloat.le (Ellipsoid.flattening E) (Ellipsoid.eccentricity E) = true
   ∧ PyFloat.lt (Ellipsoid.thirdflattening E) 1 = true)
  ∧ (PyFloat.eq (Ellipsoid.flattening E) 0
     = PyFloat.eq (Ellipsoid.semimajor_axis E) (Ellipsoid.semiminor_axis E)
     ∧ PyFloat.eq (Ellipsoid.thirdflattening E) 0
       = PyFloat.eq (Ellipsoid.semimajor_axis E) (Ellipsoid.semiminor_axis E)
     ∧ PyFloat.eq (Ellipsoid.eccentricity E) 0
       = PyFloat.eq (Ellipsoid.semimajor_axis E) (Ellipsoid.semiminor_axis E)).

Global Instance shape_ordered_dec (E : Ellipsoid.t) : Decision (shape_ordered E).
Proof. unfold shape_ordered. apply _. Defined.

(** * Properties *)

Local Open Scope float_scope.

(** ** Running statements *)

Lemma bind_setattr {B : Type} (k : string) (v : value) (f : unit → M B) (self : obj) :
  (setattr k v ≫= f) self = f tt (<[k := v]> self).
Proof. reflexivity. Qed.

Lemma bind_lift {A B : Type} (r : result A) (f : A → M B) (self : obj) :
  (lift r ≫= f) self = match r with Ok x => f x self | Raise e => Raise e end.
Proof. by destruct r. Qed.

Lemma bind_getattr_float {B : Type} (k : string) (x : float) (f : float → M B) (self : obj) :
  self !! k = Some (VFloat x) →
  (getattr_float k ≫= f) self = f x self.
Proof.
  intros Hk. unfold getattr_float, getattr, mbind, M_bind. by rewrite Hk.
Qed.

Lemma bind_Ok {A B : Type} (x : A) (f : A → result B) : (Ok x ≫= f) = f x.
Proof. reflexivity. Qed.

Lemma bind_Raise {A B : Type} (e : exn) (f : A → result B) : (Raise e ≫= f) = Raise e.
Proof. reflexivity. Qed.

Ltac run_statements :=
  repeat first
    [ rewrite bind_Ok
    | rewrite bind_Raise
    | rewrite bind_setattr
    | rewrite bind_lift
    | erewrite bind_getattr_float
        by (rewrite ?lookup_insert_ne by discriminate; apply lookup_insert_eq) ].

(** ** [__init__] as a lookup followed by arithmetic *)

Lemma init_unfold (libm_pow : float → float → float) (arg : option string) (self : obj) :
  Ellipsoid.__init__ libm_pow arg self =
  let model := default "wgs84"%string arg in
  match models !! model with
  | None =>
      Raise (NotImplementedError
               (model +:+ " model not implemented, let us know and we will add it (or make a pull request)"))
  | Some e =>
      match Ellipsoid.derive libm_pow e with
      | Ok d => Ok (tt, Ellipsoid.assign model e d self)
      | Raise x => Raise x
      end
  end.
Proof.
  unfold Ellipsoid.__init__. cbv zeta. generalize (default "wgs84"%string arg) as model.
  intros model. case_bool_decide as Hdom.
  - apply not_elem_of_dom in Hdom. by rewrite Hdom.
  - apply elem_of_dom in Hdom as [e He].
    rewrite He. unfold Ellipsoid.derive, Ellipsoid.assign, subscript. rewrite He.
    cbv zeta. run_statements.
    destruct (PyFloat.truediv _ (Model.a e)) as [f|x]; [|reflexivity].
    run_statements.
    destruct (PyFloat.truediv _ (_ + _)) as [n|x]; [|reflexivity].
    run_statements.
    destruct (PyFloat.pow2 libm_pow f) as [p|x]; [|reflexivity].
    run_statements.
    destruct (PyFloat.math_sqrt _) as [r|x]; [|reflexivity].
    by run_statements.
Qed.

(** ** The registry, entry by entry *)

Lemma models_computed : map_Forall (λ _ e, entry_computed e) models.
Proof. compute_done. Qed.

Lemma models_in_range : map_Forall (λ id e, Spec.in_range (Spec.ellipsoid id e)) models.
Proof. compute_done. Qed.

Lemma models_recomputed : map_Forall (λ id e, Spec.recomputed (Spec.ellipsoid id e)) models.
Proof. compute_done. Qed.

Lemma models_dwarf_io :
  map_Forall
    (λ id e, id ≠ "io" →
             PyFloat.lt (600 * 1829.7) (Model.b e) = true
             ∧ PyFloat.lt (600 * 1829.7) (Model.a e) = true)
    models.
Proof. compute_done. Qed.

Lemma derive_const (libm_pow : float → float → float) (e : Model.t) :
  Ellipsoid.derive libm_pow e
  = Ellipsoid.derive
      (λ _ _, libm_pow (PrimFloat.abs (Spec.flattening (Model.a e) (Model.b e))) 2) e.
Proof.
  unfold Ellipsoid.derive, PyFloat.truediv. cbv zeta.
  destruct (PrimFloat.eqb (Model.a e) 0); reflexivity.
Qed.

Lemma read_assign (id : string) (e : Model.t) (d : float * float * float) (self : obj) :
  Ellipsoid.read (Ellipsoid.assign id e d self)
  = Some (Ellipsoid.mk id (Model.name e) (Model.a e) (Model.b e) d.1.1 d.1.2 d.2).
Proof.
  unfold Ellipsoid.read, Ellipsoid.str_attr, Ellipsoid.float_attr, Ellipsoid.assign.
  by simplify_map_eq.
Qed.

Lemma assign_frame (id : string) (e : Model.t) (d : float * float * float) (self : obj) (k : string) :
  k ∉ Ellipsoid.attributes →
  Ellipsoid.assign id e d self !! k = self !! k.
Proof.
  unfold Ellipsoid.attributes, Ellipsoid.assign. intros Hk.
  repeat (rewrite lookup_insert_ne; [| intros <-; apply Hk; set_solver]).
  reflexivity.
Qed.

Lemma construct_unfold (libm_pow : float → float → float) (arg : option string) :
  Ellipsoid.construct libm_pow arg =
  let model := default "wgs84"%string arg in
  match models !! model with
  | None =>
      Raise (NotImplementedError
               (model +:+ " model not implemented, let us know and we will add it (or make a pull request)"))
  | Some e =>
      match Ellipsoid.derive libm_pow e with
      | Ok d => Ok (Ellipsoid.assign model e d ∅)
      | Raise x => Raise x
      end
  end.
Proof.
  unfold Ellipsoid.construct. rewrite init_unfold. cbv zeta.
  destruct (models !! _) as [e|]; [|reflexivity].
  by destruct (Ellipsoid.derive libm_pow e).
Qed.

Lemma exact_pow_faithful : PyFloat.faithful PyFloat.exact_pow.
Proof. intros x. unfold PyFloat.candidates. left. Qed.

Section Platform.
Variable libm_pow : float → float → float.
Hypothesis libm_pow_faithful : PyFloat.faithful libm_pow.

Lemma derive_registered (id : string) (e : Model.t) :
  models !! id = Some e →
  Ellipsoid.derive libm_pow e
  = Ok (Spec.flattening (Model.a e) (Model.b e),
        Spec.thirdflattening (Model.a e) (Model.b e),
        Spec.eccentricity (Spec.flattening (Model.a e) (Model.b e))).
Proof.
  intros He. rewrite derive_const.
  pose proof (models_computed id e He) as Hall. unfold entry_computed in Hall.
  cbv zeta in Hall. rewrite Forall_forall in Hall. apply Hall.
  apply libm_pow_faithful.
Qed.

Lemma init_registered (id : string) (e : Model.t) (self : obj) :
  models !! id = Some e →
  ∃ o, Ellipsoid.__init__ libm_pow (Some id) self = Ok (tt, o)
       ∧ Ellipsoid.read o = Some (Spec.ellipsoid id e)
       ∧ ∀ k, k ∉ Ellipsoid.attributes → o !! k = self !! k.
Proof.
  intros He. rewrite init_unfold.
  change (default "wgs84"%string (Some id)) with id. cbv zeta.
  rewrite He, (derive_registered id e He).
  eexists. split; [reflexivity|]. split.
  - by rewrite read_assign.
  - intros k Hk. by apply assign_frame.
Qed.

Lemma construct_registered (id : string) (e : Model.t) :
  models !! id = Some e →
  ∃ o, Ellipsoid.construct libm_pow (Some id) = Ok o
       ∧ Ellipsoid.read o = Some (Spec.ellipsoid id e).
Proof.
  intros He. destruct (init_registered id e ∅ He) as (o & Ho & Hread & _).
  exists o. split; [|done]. unfold Ellipsoid.construct. by rewrite Ho.
Qed.

(** ** The registry and the constructor *)

(** C1: the registry holds, verbatim, the axes cited for wgs84, grs80,
    wgs72, mars and moon, and constructing any of the five returns an
    Ellipsoid whose semimajor_axis and semiminor_axis are those floats (the
    same floats, and equal under Python's ==). *)
Theorem cited_entries_verbatim :
  Forall
    (λ '(id, a, b),
       (∃ nm, models !! id = Some (Model.mk nm a b))
       ∧ ∃ o E,
           Ellipsoid.construct libm_pow (Some id) = Ok o
           ∧ Ellipsoid.read o = Some E
           ∧ Ellipsoid.semimajor_axis E = a
           ∧ Ellipsoid.semiminor_axis E = b
           ∧ PyFloat.eq (Ellipsoid.semimajor_axis E) a = true
           ∧ PyFloat.eq (Ellipsoid.semiminor_axis E) b = true)
    Spec.cited.
Proof.
  unfold Spec.cited.
  repeat first [apply List.Forall_cons | apply List.Forall_nil].
  all: cbv beta iota.
  all: match goal with
       | |- (∃ nm, models !! ?id = _) ∧ _ =>
           destruct (models !! id) as [e|] eqn:He; [| by vm_compute in He];
           pose proof (construct_registered id e He) as (o & Ho & Hread);
           vm_compute in He; injection He as <-;
           split; [by eexists |];
           exists o; eexists; repeat split; [exact Ho | exact Hread | ..];
           by vm_compute
       end.
Qed.

(** C2: constructing fails exactly when the identifier is not a key of the
    registry (string equality, so case matters); the error is then the
    NotImplementedError whose message starts with the identifier, and a key
    of the registry raises nothing. *)
Theorem unsupported_iff_unregistered :
  (∀ id : string,
     ((∃ x, Ellipsoid.construct libm_pow (Some id) = Raise x) ↔ id ∉ dom models)
     ∧ (∀ x, Ellipsoid.construct libm_pow (Some id) = Raise x →
             x = NotImplementedError
                   (id +:+ " model not implemented, let us know and we will add it (or make a pull request)")
             ∧ Spec.UnsupportedModelError id x)
     ∧ (id ∈ dom models → ∃ o, Ellipsoid.construct libm_pow (Some id) = Ok o))
  ∧ (∃ x, Ellipsoid.construct libm_pow (Some "not-a-real-model") = Raise x
          ∧ Spec.UnsupportedModelError "not-a-real-model" x)
  ∧ ("wgs84" ∈ dom models
     ∧ ∃ x, Ellipsoid.construct libm_pow (Some "WGS84") = Raise x
            ∧ Spec.UnsupportedModelError "WGS84" x).
Proof.
  assert (Hsome : ∀ id, id ∈ dom models →
                        ∃ o, Ellipsoid.construct libm_pow (Some id) = Ok o).
  { intros id [e He]%elem_of_dom.
    destruct (construct_registered id e He) as (o & Ho & _). by exists o. }
  assert (Hnone : ∀ id, id ∉ dom models →
                        Ellipsoid.construct libm_pow (Some id)
                        = Raise (NotImplementedError
                                   (id +:+ " model not implemented, let us know and we will add it (or make a pull request)"))).
  { intros id Hid%not_elem_of_dom. rewrite construct_unfold.
    change (default "wgs84"%string (Some id)) with id. cbv zeta. by rewrite Hid. }
  assert (Hraise : ∀ id x, Ellipsoid.construct libm_pow (Some id) = Raise x →
                           id ∉ dom models).
  { intros id x Hx Hid. destruct (Hsome id Hid) as [o Ho]. congruence. }
  split; [| split; [| split]].
  - intros id. split; [| split].
    + split; [intros [x Hx]; by eapply Hraise | intros Hid; eexists; by apply Hnone].
    + intros x Hx. pose proof (Hnone id (Hraise id x Hx)) as Hn.
      rewrite Hx in Hn. injection Hn as ->. split; [done | by eexists].
    + apply Hsome.
  - eexists. split; [apply Hnone; by vm_compute | by eexists].
  - by vm_compute.
  - eexists. split; [apply Hnone; by vm_compute | by eexists].
Qed.

(** C4: for every registered identifier the constructed Ellipsoid carries
    the identifier, the entry's display name and axes, and derived fields
    that are the formulas of section 3 applied to the stored axes:
    flattening (a - b) / a, thirdflattening (a - b) / (a + b) and
    eccentricity sqrt(2f - f^2). *)
Theorem derived_fields_follow_formulas (id : string) :
  id ∈ dom models →
  ∃ e o E,
    models !! id = Some e
    ∧ Ellipsoid.construct libm_pow (Some id) = Ok o
    ∧ Ellipsoid.read o = Some E
    ∧ Ellipsoid.model E = id
    ∧ Ellipsoid.name E = Model.name e
    ∧ Ellipsoid.semimajor_axis E = Model.a e
    ∧ Ellipsoid.semiminor_axis E = Model.b e
    ∧ Spec.recomputed E.
Proof.
  intros [e He]%elem_of_dom.
  destruct (construct_registered id e He) as (o & Ho & Hread).
  exists e, o, (Spec.ellipsoid id e).
  split; [exact He |]. split; [exact Ho |]. split; [exact Hread |].
  repeat (split; [reflexivity |]).
  exact (models_recomputed id e He).
Qed.

(** C5: for every registered identifier the constructed Ellipsoid has
    semimajor_axis >= semiminor_axis > 0, 0 <= flattening < 1 and
    0 <= eccentricity < 1. *)
Theorem registered_in_range (id : string) :
  id ∈ dom models →
  ∃ o E,
    Ellipsoid.construct libm_pow (Some id) = Ok o
    ∧ Ellipsoid.read o = Some E
    ∧ Spec.in_range E.
Proof.
  intros [e He]%elem_of_dom.
  destruct (construct_registered id e He) as (o & Ho & Hread).
  exists o, (Spec.ellipsoid id e). split; [done |]. split; [done |].
  exact (models_in_range id e He).
Qed.

(** C7: a call without argument runs exactly as the call with "wgs84": the
    two results are equal, and they are the same WGS-84 instance. *)
Theorem default_model_is_wgs84 :
  (∀ self, Ellipsoid.__init__ libm_pow None self
           = Ellipsoid.__init__ libm_pow (Some "wgs84") self)
  ∧ Ellipsoid.construct libm_pow None = Ellipsoid.construct libm_pow (Some "wgs84")
  ∧ ∃ o E,
      Ellipsoid.construct libm_pow None = Ok o
      ∧ Ellipsoid.construct libm_pow (Some "wgs84") = Ok o
      ∧ Ellipsoid.read o = Some E
      ∧ Ellipsoid.model E = "wgs84"
      ∧ Ellipsoid.semimajor_axis E = 6378137.0
      ∧ Ellipsoid.semiminor_axis E = 6356752.31424518.
Proof.
  split; [reflexivity |]. split; [reflexivity |].
  destruct (models !! "wgs84") as [e|] eqn:He; [| by vm_compute in He].
  destruct (construct_registered "wgs84" e He) as (o & Ho & Hread).
  vm_compute in He. injection He as <-.
  exists o. eexists. split; [exact Ho |]. split; [exact Ho |].
  split; [exact Hread |]. repeat split; reflexivity.
Qed.

(** C8: whatever the call and whatever the attributes the object already
    had, recomputing from the stored semimajor_axis and semiminor_axis
    reproduces the stored flattening, thirdflattening and eccentricity
    exactly, with the formulas of section 3 and with Python's own operators
    alike. *)
Theorem stored_fields_recompute :
  (∀ arg self o,
     Ellipsoid.__init__ libm_pow arg self = Ok (tt, o) →
     ∃ E, Ellipsoid.read o = Some E
          ∧ Spec.recomputed E
          ∧ Ellipsoid.derive libm_pow
              (Model.mk (Ellipsoid.name E) (Ellipsoid.semimajor_axis E)
                 (Ellipsoid.semiminor_axis E))
            = Ok (Ellipsoid.flattening E, Ellipsoid.thirdflattening E,
                  Ellipsoid.eccentricity E))
  ∧ (∀ arg o,
       Ellipsoid.construct libm_pow arg = Ok o →
       ∃ E, Ellipsoid.read o = Some E
            ∧ Spec.recomputed E
            ∧ Ellipsoid.derive libm_pow
                (Model.mk (Ellipsoid.name E) (Ellipsoid.semimajor_axis E)
                   (Ellipsoid.semiminor_axis E))
              = Ok (Ellipsoid.flattening E, Ellipsoid.thirdflattening E,
                    Ellipsoid.eccentricity E)).
Proof.
  assert (Hinit : ∀ arg self o,
            Ellipsoid.__init__ libm_pow arg self = Ok (tt, o) →
            ∃ E, Ellipsoid.read o = Some E
                 ∧ Spec.recomputed E
                 ∧ Ellipsoid.derive libm_pow
                     (Model.mk (Ellipsoid.name E) (Ellipsoid.semimajor_axis E)
                        (Ellipsoid.semiminor_axis E))
                   = Ok (Ellipsoid.flattening E, Ellipsoid.thirdflattening E,
                         Ellipsoid.eccentricity E)).
  { intros arg self o. rewrite init_unfold. cbv zeta.
    generalize (default "wgs84" arg) as id. intros id.
    destruct (models !! id) as [e|] eqn:He; [| done].
    rewrite (derive_registered id e He). intros [= <-].
    exists (Spec.ellipsoid id e). split; [by rewrite read_assign |].
    split; [exact (models_recomputed id e He) |].
    destruct e as [nm a b]. exact (derive_registered id _ He). }
  split; [exact Hinit |].
  intros arg o Ho. unfold Ellipsoid.construct in Ho.
  destruct (Ellipsoid.__init__ libm_pow arg ∅) as [[[] o']|x] eqn:Hrun; [| done].
  injection Ho as ->. by eapply Hinit.
Qed.

(** C10: constructing "io" returns the axes 1829.7 and 1815.8, while both
    axes of every other registered body are more than six hundred times
    larger; multiplied by one thousand, Io's axes fall between Pluto's and
    Mercury's. *)
Theorem io_axes_three_orders_smaller :
  (∃ o E,
     Ellipsoid.construct libm_pow (Some "io") = Ok o
     ∧ Ellipsoid.read o = Some E
     ∧ Ellipsoid.semimajor_axis E = 1829.7
     ∧ Ellipsoid.semiminor_axis E = 1815.8
     ∧ PyFloat.eq (Ellipsoid.semimajor_axis E) 1829.7 = true
     ∧ PyFloat.eq (Ellipsoid.semiminor_axis E) 1815.8 = true)
  ∧ (∀ id e,
       models !! id = Some e → id ≠ "io" →
       PyFloat.lt (600 * 1829.7) (Model.b e) = true
       ∧ PyFloat.lt (600 * 1829.7) (Model.a e) = true)
  ∧ (∃ pluto mercury,
       models !! "pluto" = Some pluto
       ∧ models !! "mercury" = Some mercury
       ∧ PyFloat.lt (Model.a pluto) (1000 * 1815.8) = true
       ∧ PyFloat.lt (1000 * 1829.7) (Model.b mercury) = true).
Proof.
  split; [| split].
  - destruct (models !! "io") as [e|] eqn:He; [| by vm_compute in He].
    destruct (construct_registered "io" e He) as (o & Ho & Hread).
    vm_compute in He. injection He as <-.
    exists o. eexists. split; [exact Ho |]. split; [exact Hread |].
    repeat split; by vm_compute.
  - intros id e He. exact (models_dwarf_io id e He).
  - do 2 eexists. split; [by vm_compute |]. split; [by vm_compute |].
    split; by vm_compute.
Qed.

End Platform.

(** C3: the registry has no key 'jupiter': the entry whose display name is
    'Jupiter' is stored under 'jupyter', so constructing "jupiter" raises
    the NotImplementedError for an unknown model on every platform. *)
Theorem jupiter_unsupported (libm_pow : float → float → float) :
  Ellipsoid.construct libm_pow (Some "jupiter")
  = Raise (NotImplementedError
             "jupiter model not implemented, let us know and we will add it (or make a pull request)")
  ∧ ("jupiter" ∉ dom models)
  ∧ models !! "jupyter" = Some (Model.mk "Jupiter" 71492000.0 66770054.3475922).
Proof.
  split; [| split].
  - rewrite construct_unfold. by vm_compute.
  - by vm_compute.
  - by vm_compute.
Qed.

(** C6: Venus and Pluto are spheres: the two axes are equal, and the
    flattening and the eccentricity are exactly zero, whatever the
    platform's [pow] returns (the square of zero never reaches it). *)
Theorem venus_pluto_spheres (libm_pow : float → float → float) :
  Forall
    (λ id, ∃ o E,
             Ellipsoid.construct libm_pow (Some id) = Ok o
             ∧ Ellipsoid.read o = Some E
             ∧ Spec.sphere E)
    ["venus"; "pluto"].
Proof.
  repeat first [apply List.Forall_cons | apply List.Forall_nil].
  all: rewrite construct_unfold; cbv zeta.
  all: match goal with
       | |- context [models !! default _ (Some ?id)] =>
           change (default "wgs84" (Some id)) with id;
           destruct (models !! id) as [e|] eqn:He; [| by vm_compute in He];
           vm_compute in He; injection He as <-
       end.
  all: match goal with
       | |- context [Ellipsoid.derive ?p ?e] =>
           assert (Ellipsoid.derive p e = Ok (0, 0, 0)) as ->
             by (by vm_compute)
       end.
  all: eexists _, _; split; [reflexivity |]; split; [apply read_assign |].
  all: compute_done.
Qed.

(** C9: the outcome of a call is a function of the model identifier alone
    (for [construct] both objects are new, without attributes).
    Run against two objects in arbitrary states, [__init__] either raises
    the same exception for both or succeeds for both; it then leaves the
    same seven fields in both, and every other attribute of each object as
    it was. Nothing but the object under construction is written. *)
Theorem outcome_depends_on_model_only
  (libm_pow : float → float → float) (arg : option string) (self1 self2 : obj) :
  match Ellipsoid.__init__ libm_pow arg self1,
        Ellipsoid.__init__ libm_pow arg self2 with
  | Ok (_, o1), Ok (_, o2) =>
      is_Some (Ellipsoid.read o1)
      ∧ Ellipsoid.read o1 = Ellipsoid.read o2
      ∧ ∀ k, k ∉ Ellipsoid.attributes → o1 !! k = self1 !! k ∧ o2 !! k = self2 !! k
  | Raise x1, Raise x2 => x1 = x2
  | _, _ => False
  end.
Proof.
  rewrite !init_unfold. cbv zeta.
  destruct (models !! default "wgs84" arg) as [e|]; [| done].
  destruct (Ellipsoid.derive libm_pow e) as [d|x]; [| done].
  rewrite !read_assign. split; [by eexists |]. split; [done |].
  intros k Hk. by rewrite !assign_frame.
Qed.


(** The platform assumption is met by a correctly rounding C library, at
    which each statement above can be evaluated. *)

Lemma cited_entries_verbatim_witness :
  PyFloat.faithful PyFloat.exact_pow
  ∧ Forall
      (λ '(id, a, b),
         (∃ nm, models !! id = Some (Model.mk nm a b))
         ∧ ∃ o E,
             Ellipsoid.construct PyFloat.exact_pow (Some id) = Ok o
             ∧ Ellipsoid.read o = Some E
             ∧ Ellipsoid.semimajor_axis E = a
             ∧ Ellipsoid.semiminor_axis E = b
             ∧ PyFloat.eq (Ellipsoid.semimajor_axis E) a = true
             ∧ PyFloat.eq (Ellipsoid.semiminor_axis E) b = true)
      Spec.cited.
Proof.
  split.
  - intros x. left.
  - apply (cited_entries_verbatim PyFloat.exact_pow). intros x. left.
Defined.

Lemma unsupported_iff_unregistered_witness :
  PyFloat.faithful PyFloat.exact_pow
  ∧ ((∃ x, Ellipsoid.construct PyFloat.exact_pow (Some "wgs 84") = Raise x)
     ↔ "wgs 84" ∉ dom models).
Proof.
  split.
  - intros x. left.
  - apply (unsupported_iff_unregistered PyFloat.exact_pow); intros x; left.
Defined.

Lemma derived_fields_follow_formulas_witness :
  PyFloat.faithful PyFloat.exact_pow
  ∧ "grs80" ∈ dom models
  ∧ ∃ e o E,
      models !! "grs80" = Some e
      ∧ Ellipsoid.construct PyFloat.exact_pow (Some "grs80") = Ok o
      ∧ Ellipsoid.read o = Some E
      ∧ Ellipsoid.model E = "grs80"
      ∧ Ellipsoid.name E = Model.name e
      ∧ Ellipsoid.semimajor_axis E = Model.a e
      ∧ Ellipsoid.semiminor_axis E = Model.b e
      ∧ Spec.recomputed E.
Proof.
  split; [intros x; left |]. split; [by vm_compute |].
  apply (derived_fields_follow_formulas PyFloat.exact_pow).
  - intros x. left.
  - by vm_compute.
Defined.

Lemma registered_in_range_witness :
  PyFloat.faithful PyFloat.exact_pow
  ∧ "saturn" ∈ dom models
  ∧ ∃ o E,
      Ellipsoid.construct PyFloat.exact_pow (Some "saturn") = Ok o
      ∧ Ellipsoid.read o = Some E
      ∧ Spec.in_range E.
Proof.
  split; [intros x; left |]. split; [by vm_compute |].
  apply (registered_in_range PyFloat.exact_pow).
  - intros x. left.
  - by vm_compute.
Defined.

Lemma default_model_is_wgs84_witness :
  PyFloat.faithful PyFloat.exact_pow
  ∧ Ellipsoid.construct PyFloat.exact_pow None
    = Ellipsoid.construct PyFloat.exact_pow (Some "wgs84").
Proof.
  split; [intros x; left |].
  apply (default_model_is_wgs84 PyFloat.exact_pow). intros x. left.
Defined.

Lemma stored_fields_recompute_witness :
  PyFloat.faithful PyFloat.exact_pow
  ∧ ∃ o,
      Ellipsoid.construct PyFloat.exact_pow (Some "mars") = Ok o
      ∧ ∃ E, Ellipsoid.read o = Some E
             ∧ Spec.recomputed E
             ∧ Ellipsoid.derive PyFloat.exact_pow
                 (Model.mk (Ellipsoid.name E) (Ellipsoid.semimajor_axis E)
                    (Ellipsoid.semiminor_axis E))
               = Ok (Ellipsoid.flattening E, Ellipsoid.thirdflattening E,
                     Ellipsoid.eccentricity E).
Proof.
  split; [intros x; left |].
  destruct (models !! "mars") as [e|] eqn:He; [| vm_compute in He; discriminate He].
  destruct (construct_registered PyFloat.exact_pow exact_pow_faithful "mars" e He)
    as (o & Ho & _).
  exists o. split; [exact Ho |].
  apply (proj2 (stored_fields_recompute PyFloat.exact_pow
                  (λ x, list_elem_of_here _ _)) (Some "mars") o Ho).
Defined.

Lemma io_axes_three_orders_smaller_witness :
  PyFloat.faithful PyFloat.exact_pow
  ∧ ∃ o E,
      Ellipsoid.construct PyFloat.exact_pow (Some "io") = Ok o
      ∧ Ellipsoid.read o = Some E
      ∧ Ellipsoid.semimajor_axis E = 1829.7
      ∧ Ellipsoid.semiminor_axis E = 1815.8
      ∧ PyFloat.eq (Ellipsoid.semimajor_axis E) 1829.7 = true
      ∧ PyFloat.eq (Ellipsoid.semiminor_axis E) 1815.8 = true.
Proof.
  split; [intros x; left |].
  apply (io_axes_three_orders_smaller PyFloat.exact_pow). intros x. left.
Defined.

(** * Further properties of the registry and of [__init__] *)

(** ** Helper facts *)

Lemma models_items_keys_distinct : NoDup (models_items.*1).
Proof. compute_done. Qed.

Lemma models_shape_ordered :
  map_Forall (λ id e, shape_ordered (Spec.ellipsoid id e)) models.
Proof. compute_done. Qed.

Lemma models_divisors_nonzero :
  map_Forall
    (λ _ e,
       PyFloat.truediv (Model.a e - Model.b e) (Model.a e)
       = Ok (Spec.flattening (Model.a e) (Model.b e))
       ∧ PyFloat.truediv (Model.a e - Model.b e) (Model.a e + Model.b e)
         = Ok (Spec.thirdflattening (Model.a e) (Model.b e)))
    models.
Proof. compute_done. Qed.

Lemma pow2_raises (libm_pow : float → float → float) (x : float) (y : exn) :
  PyFloat.pow2 libm_pow x = Raise y → y = OverflowError.
Proof.
  unfold PyFloat.pow2. cbv zeta.
  repeat match goal with
         | |- context [if ?c then _ else _] => destruct c
         end; congruence.
Qed.

Lemma math_sqrt_raises (x : float) (y : exn) :
  PyFloat.math_sqrt x = Raise y → y = ValueError.
Proof.
  unfold PyFloat.math_sqrt. cbv zeta.
  destruct (_ && _); congruence.
Qed.


Lemma upward_pow_faithful : PyFloat.faithful upward_pow.
Proof. intros x. unfold PyFloat.candidates. right. left. Qed.

(** ** The dict literal *)

(** X1: the dict literal writes 36 bindings under 36 different keys, so no
    binding shadows another: a lookup returns an entry exactly when the
    literal writes that entry under that key. *)
Theorem literal_bindings_all_reachable :
  NoDup (models_items.*1)
  ∧ size models = 36%nat
  ∧ ∀ k e, models !! k = Some e ↔ (k, e) ∈ models_items.
Proof.
  split; [exact models_items_keys_distinct |]. split; [by vm_compute |].
  intros k e. unfold models, dict_literal.
  rewrite <- elem_of_list_to_map.
  - by rewrite elem_of_reverse.
  - rewrite fmap_reverse, reverse_Permutation. exact models_items_keys_distinct.
Qed.

(** ** Initialising again *)


(** ** The derived scalars *)

(** X3: for every registered identifier the constructed Ellipsoid has
    0 <= thirdflattening <= flattening <= eccentricity and
    thirdflattening < 1, and each of the three derived scalars is zero
    exactly when the two axes are equal. *)
Theorem derived_scalars_ordered
  (libm_pow : float → float → float) (id : string) :
  PyFloat.faithful libm_pow →
  id ∈ dom models →
  ∃ o E,
    Ellipsoid.construct libm_pow (Some id) = Ok o
    ∧ Ellipsoid.read o = Some E
    ∧ shape_ordered E.
Proof.
  intros Hpow [e He]%elem_of_dom.
  destruct (construct_registered libm_pow Hpow id e He) as (o & Ho & Hread).
  exists o, (Spec.ellipsoid id e). split; [exact Ho |]. split; [exact Hread |].
  exact (models_shape_ordered id e He).
Qed.

(** ** Exceptions without an assumption on the platform *)

(** X4: whatever the C library's [pow] returns, initialising with a
    registered identifier never fails in a lookup, an attribute read or a
    division: it either raises OverflowError or ValueError (from the square
    and the square root of the last line) or succeeds, and then the object
    holds the identifier, the entry's name and axes, and the flattening and
    third flattening of the formulas. *)
Theorem registered_fails_only_in_last_line
  (libm_pow : float → float → float) (id : string) (e : Model.t) (self : obj) :
  models !! id = Some e →
  match Ellipsoid.__init__ libm_pow (Some id) self with
  | Ok (_, o) =>
      ∃ E, Ellipsoid.read o = Some E
           ∧ Ellipsoid.model E = id
           ∧ Ellipsoid.name E = Model.name e
           ∧ Ellipsoid.semimajor_axis E = Model.a e
           ∧ Ellipsoid.semiminor_axis E = Model.b e
           ∧ Ellipsoid.flattening E = Spec.flattening (Model.a e) (Model.b e)
           ∧ Ellipsoid.thirdflattening E
             = Spec.thirdflattening (Model.a e) (Model.b e)
  | Raise x => x = OverflowError ∨ x = ValueError
  end.
Proof.
  intros He. rewrite init_unfold.
  change (default "wgs84" (Some id)) with id. cbv zeta. rewrite He.
  unfold Ellipsoid.derive. cbv zeta.
  destruct (models_divisors_nonzero id e He) as [-> ->].
  rewrite !bind_Ok.
  destruct (PyFloat.pow2 libm_pow _) as [p|x] eqn:Hp.
  - rewrite bind_Ok.
    destruct (PyFloat.math_sqrt _) as [r|x] eqn:Hr.
    + rewrite bind_Ok, read_assign. eexists. split; [reflexivity |].
      repeat split.
    + rewrite bind_Raise. right. by eapply math_sqrt_raises.
  - rewrite bind_Raise. left. by eapply pow2_raises.
Qed.

(** ** The stored identifier *)

(** X5: the [model] attribute of a constructed Ellipsoid names it: passing
    it back to the constructor returns an equal object, also when the first
    call relied on the default argument. *)
Theorem stored_model_reconstructs
  (libm_pow : float → float → float) (arg : option string) (o : obj) (E : Ellipsoid.t) :
  Ellipsoid.construct libm_pow arg = Ok o →
  Ellipsoid.read o = Some E →
  Ellipsoid.construct libm_pow (Some (Ellipsoid.model E)) = Ok o.
Proof.
  rewrite !construct_unfold. cbv zeta.
  generalize (default "wgs84" arg) as id. intros id.
  destruct (models !! id) as [e|] eqn:He; [| discriminate].
  destruct (Ellipsoid.derive libm_pow e) as [d|] eqn:Hd; [| discriminate].
  intros [= <-]. rewrite read_assign. intros [= <-].
  cbn [Ellipsoid.model]. change (default "wgs84" (Some id)) with id.
  by rewrite He, Hd.
Qed.

(** ** Independence of the platform *)

(** X6: two platforms whose C [pow] is accurate to one unit in the last
    place on squares run [__init__] identically: the same exception or the
    same object, bit for bit, for every argument and every prior object. *)
Theorem platform_independent (libm1 libm2 : float → float → float) :
  PyFloat.faithful libm1 →
  PyFloat.faithful libm2 →
  (∀ arg self, Ellipsoid.__init__ libm1 arg self = Ellipsoid.__init__ libm2 arg self)
  ∧ (∀ arg, Ellipsoid.construct libm1 arg = Ellipsoid.construct libm2 arg).
Proof.
  intros H1 H2.
  assert (Hinit : ∀ arg self, Ellipsoid.__init__ libm1 arg self
                              = Ellipsoid.__init__ libm2 arg self).
  { intros arg self. rewrite !init_unfold. cbv zeta.
    destruct (models !! default "wgs84" arg) as [e|] eqn:He; [| reflexivity].
    by rewrite (derive_registered libm1 H1 _ e He),
               (derive_registered libm2 H2 _ e He). }
  split; [exact Hinit |].
  intros arg. unfold Ellipsoid.construct. by rewrite Hinit.
Qed.

(** ** The further statements evaluated *)


Lemma derived_scalars_ordered_witness :
  PyFloat.faithful upward_pow
  ∧ "neptune" ∈ dom models
  ∧ ∃ o E,
      Ellipsoid.construct upward_pow (Some "neptune") = Ok o
      ∧ Ellipsoid.read o = Some E
      ∧ shape_ordered E.
Proof.
  split; [intros x; right; left |]. split; [by vm_compute |].
  apply (derived_scalars_ordered upward_pow "neptune").
  - intros x. right. left.
  - by vm_compute.
Defined.

Lemma registered_fails_only_in_last_line_witness :
  models !! "io" = Some (Model.mk "Io" 1829.7 1815.8)
  ∧ match Ellipsoid.__init__ (λ _ _, infinity) (Some "io") ∅ with
    | Ok (_, o) =>
        ∃ E, Ellipsoid.read o = Some E
             ∧ Ellipsoid.model E = "io"
             ∧ Ellipsoid.name E = "Io"
             ∧ Ellipsoid.semimajor_axis E = 1829.7
             ∧ Ellipsoid.semiminor_axis E = 1815.8
             ∧ Ellipsoid.flattening E = Spec.flattening 1829.7 1815.8
             ∧ Ellipsoid.thirdflattening E = Spec.thirdflattening 1829.7 1815.8
    | Raise x => x = OverflowError ∨ x = ValueError
    end.
Proof.
  split; [by vm_compute |].
  apply (registered_fails_only_in_last_line
           (λ _ _, infinity) "io" (Model.mk "Io" 1829.7 1815.8) ∅).
  by vm_compute.
Defined.

Lemma stored_model_reconstructs_witness :
  ∃ o E,
    Ellipsoid.construct PyFloat.exact_pow None = Ok o
    ∧ Ellipsoid.read o = Some E
    ∧ Ellipsoid.construct PyFloat.exact_pow (Some (Ellipsoid.model E)) = Ok o.
Proof.
  destruct (models !! "wgs84") as [e|] eqn:He; [| vm_compute in He; discriminate He].
  destruct (construct_registered PyFloat.exact_pow exact_pow_faithful "wgs84" e He)
    as (o & Ho & Hread).
  exists o, (Spec.ellipsoid "wgs84" e). split; [exact Ho |]. split; [exact Hread |].
  exact (stored_model_reconstructs PyFloat.exact_pow None o _ Ho Hread).
Defined.

Lemma platform_independent_witness :
  PyFloat.faithful PyFloat.exact_pow
  ∧ PyFloat.faithful upward_pow
  ∧ PyFloat.exact_pow 0.5 2 ≠ upward_pow 0.5 2
  ∧ Ellipsoid.construct PyFloat.exact_pow (Some "saturn")
    = Ellipsoid.construct upward_pow (Some "saturn").
Proof.
  split; [intros x; left |]. split; [intros x; right; left |].
  split; [by vm_compute |].
  apply (platform_independent PyFloat.exact_pow upward_pow).
  - intros x. left.
  - intros x. right. left.
Defined.
